(** * Module federation demo: the remote [Counter] rendered inside the host [App]

    The repository holds two React 16 applications.  [app2] exposes the
    function component [Counter] (src/components/Counter.js); [app1] loads it
    with [React.lazy], keeps the counter in a [useState] hook and renders the
    component inside a [React.Suspense] boundary (src/bootstrap.js), mounted
    with [ReactDOM.render].

    The two components are embedded as the functions they are.  What they
    rely on of the language and of the React runtime (values, elements, the
    rendering of children to DOM nodes, hooks, the suspense boundary, the
    dispatch of a click, the failure of the import) is modelled beside them,
    each definition naming the runtime behaviour it stands for. *)

From Stdlib Require Import ZArith List Lia Ascii String.
From stdpp Require Import base option strings gmap list pretty.
Import ListNotations.
Set Warnings "-register-all".

(** ** Completion of a call *)

(** A JavaScript call either returns or throws. *)
Inductive outcome (A : Type) : Type :=
| Normal (a : A)
| Throw (message : string).
Arguments Normal {A} a.
Arguments Throw {A} message.

#[export] Instance outcome_fmap : FMap outcome := fun A B f o =>
  match o with
  | Normal a => Normal (f a)
  | Throw message => Throw message
  end.

(** ** JavaScript values *)

Module JS.

(** The values the components are specified for, and the other primitive
    values a caller may pass in their place: [undefined], [null], booleans,
    numbers, strings and functions.  Objects, arrays, React elements,
    symbols and bigints are left out: what is stated for every [value] is
    stated for these six kinds.  The representation of numbers and of
    function objects is left to the program using them: [Counter] only
    passes its props on, it computes with neither. *)
Inductive value (number fn : Type) : Type :=
| VUndefined
| VNull
| VBool (b : bool)
| VNum (n : number)
| VStr (s : string)
| VFun (f : fn).
Arguments VUndefined {number fn}.
Arguments VNull {number fn}.
Arguments VBool {number fn} b.
Arguments VNum {number fn} n.
Arguments VStr {number fn} s.
Arguments VFun {number fn} f.

(** What the runtime needs of numbers: [Number::toString] and [ToBoolean]. *)
Class Number (number : Type) : Type := {
  NumberToString : number -> string;
  NumberToBoolean : number -> bool
}.

(** Calling a function object with the state [world] it can reach.  The
    handlers of this program take no argument (React passes them the event,
    which they ignore). *)
Class Callable (fn world : Type) : Type := {
  call : fn -> world -> outcome world
}.

Section Values.
Context {number fn : Type} `{Number number}.

(** [typeof v] *)
Definition typeof (v : value number fn) : string :=
  match v with
  | VUndefined => "undefined"
  | VNull => "object"
  | VBool _ => "boolean"
  | VNum _ => "number"
  | VStr _ => "string"
  | VFun _ => "function"
  end.

(** [!!v] *)
Definition ToBoolean (v : value number fn) : bool :=
  match v with
  | VUndefined | VNull => false
  | VBool b => b
  | VNum n => NumberToBoolean n
  | VStr s => negb (String.eqb s "")
  | VFun _ => true
  end.

(** [o.k]: reading a property an object does not have gives [undefined]. *)
Definition get (o : gmap string (value number fn)) (k : string) : value number fn :=
  default VUndefined (o !! k).
End Values.

End JS.
Import JS.

(** ** React elements and their rendering to the DOM *)

Module React.

(** A function component runs with the state it may touch in hand: it
    returns its element together with that state. *)
Definition Render (W A : Type) : Type := W -> A * W.

Definition ret {W A : Type} (a : A) : Render W A := fun w => (a, w).

Definition bind {W A B : Type} (m : Render W A) (k : A -> Render W B) : Render W B :=
  fun w => let (a, w') := m w in k a w'.

(** What JSX builds.  A child is a value ([EValue]: literal text is a string,
    [{e}] the value of [e]) or an element; [ELazy] is an element whose type
    is the component made by [React.lazy]. *)
Inductive element (number fn : Type) : Type :=
| EValue (v : value number fn)
| EHost (tag : string) (props : gmap string (value number fn)) (children : list (element number fn))
| EFragment (children : list (element number fn))
| ESuspense (fallback : element number fn) (children : list (element number fn))
| ELazy (props : gmap string (value number fn)).
Arguments EValue {number fn} v.
Arguments EHost {number fn} tag props children.
Arguments EFragment {number fn} children.
Arguments ESuspense {number fn} fallback children.
Arguments ELazy {number fn} props.

(** The DOM below the root container.  An element node keeps the props
    React rendered it with: that is where its listeners are read. *)
Inductive node (number fn : Type) : Type :=
| TextNode (data : string)
| ElementNode (tag : string) (props : gmap string (value number fn)) (children : list (node number fn)).
Arguments TextNode {number fn} data.
Arguments ElementNode {number fn} tag props children.

(** A render attempt completes, or meets a lazy component that is not
    loaded yet and suspends, or meets one whose import has failed and
    throws that error. *)
Inductive attempt (A : Type) : Type :=
| Ready (a : A)
| Suspended
| Failed.
Arguments Ready {A} a.
Arguments Suspended {A}.
Arguments Failed {A}.

Section Rendering.
Context {number fn : Type} `{Number number}.

(** A child that is a value: strings and numbers become a text node
    holding ['' + v]; [undefined], [null], booleans and functions render
    nothing. *)
Definition render_value (v : value number fn) : list (node number fn) :=
  match v with
  | VStr s => [TextNode s]
  | VNum n => [TextNode (NumberToString n)]
  | VUndefined | VNull | VBool _ | VFun _ => []
  end.

(** All children of a parent, in order; the first child that suspends or
    fails ends the attempt the same way. *)
Definition render_children (render : element number fn -> attempt (list (node number fn)))
    : list (element number fn) -> attempt (list (node number fn)) :=
  fix go (children : list (element number fn)) :=
    match children with
    | [] => Ready []
    | c :: rest =>
        match render c with
        | Ready ns =>
            match go rest with
            | Ready ms => Ready (ns ++ ms)
            | Suspended => Suspended
            | Failed => Failed
            end
        | Suspended => Suspended
        | Failed => Failed
        end
    end.

(** Rendering an element to nodes.  [lazy] says what the lazy component
    renders for given props, or that it is still loading.  A host element
    becomes one node around its children, a fragment is its children, and
    a suspense boundary shows its fallback when something below it
    suspends; an error passes through it. *)
Fixpoint render (lazy : gmap string (value number fn) -> attempt (list (node number fn)))
    (e : element number fn) : attempt (list (node number fn)) :=
  match e with
  | EValue v => Ready (render_value v)
  | EHost tag props children =>
      match render_children (render lazy) children with
      | Ready ns => Ready [ElementNode tag props ns]
      | Suspended => Suspended
      | Failed => Failed
      end
  | EFragment children => render_children (render lazy) children
  | ESuspense fallback children =>
      match render_children (render lazy) children with
      | Ready ns => Ready ns
      | Suspended => render lazy fallback
      | Failed => Failed
      end
  | ELazy props => lazy props
  end.

(** [n.textContent] *)
Fixpoint textContent (n : node number fn) : string :=
  match n with
  | TextNode data => data
  | ElementNode _ _ children => String.concat "" (map textContent children)
  end.

(** A node and everything below it, in document order. *)
Fixpoint descendants (n : node number fn) : list (node number fn) :=
  n :: match n with
       | TextNode _ => []
       | ElementNode _ _ children => flat_map descendants children
       end.

Definition all_nodes (doc : list (node number fn)) : list (node number fn) :=
  flat_map descendants doc.

Definition has_tag (tag : string) (n : node number fn) : bool :=
  match n with
  | TextNode _ => false
  | ElementNode t _ _ => String.eqb t tag
  end.

(** The first element with the given tag, as [querySelector(tag)]. *)
Definition querySelector (tag : string) (doc : list (node number fn)) : option (node number fn) :=
  List.find (has_tag tag) (all_nodes doc).

(** The control a user sees under a label: the first [button] whose text
    is the label. *)
Definition control (label : string) (doc : list (node number fn)) : option (node number fn) :=
  List.find (fun n => has_tag "button" n && String.eqb (textContent n) label) (all_nodes doc).

Definition node_props (n : node number fn) : gmap string (value number fn) :=
  match n with
  | TextNode _ => ∅
  | ElementNode _ props _ => props
  end.
End Rendering.

Section Events.
Context {number fn world : Type} `{Number number} `{Callable fn world}.

(** What React does with the [onClick] prop of the clicked element
    ([getListener], then the call): a function is called; a falsy value
    is no listener; anything else is refused with an error. *)
Definition invoke_listener (listener : value number fn) (w : world) : outcome world :=
  match listener with
  | VFun f => call f w
  | v =>
      if ToBoolean v
      then Throw ("Expected `onClick` listener to be a function, instead got a value of `" +:+ typeof v +:+ "` type.")
      else Normal w
  end.

(** Activating the control labelled [label] of a document.  Only the
    buttons of these documents carry a listener, so the click reaches
    that of the button alone.  Without such a control there is nothing
    to activate. *)
Definition activate (label : string) (doc : list (node number fn)) (w : world) : outcome world :=
  match control label doc with
  | Some n => invoke_listener (get (node_props n) "onClick") w
  | None => Normal w
  end.
End Events.

End React.
Import React.

(** ** app2: src/components/Counter.js *)

Module Remote.

Section Counter.
Context {number fn W : Type}.

(** [function Counter(props)]: a fragment of a paragraph and two buttons.
    The body reads three props and calls nothing. *)
Definition Counter (props : gmap string (value number fn)) : Render W (element number fn) :=
  ret (EFragment
    [ EHost "p" ∅ [EValue (VStr "Count: "); EValue (get props "count")];
      EHost "button" {[ "onClick" := get props "onIncrement" ]} [EValue (VStr "Increment")];
      EHost "button" {[ "onClick" := get props "onDecrement" ]} [EValue (VStr "Decrement")] ]).
End Counter.

End Remote.

(** ** app1: src/bootstrap.js *)

Module Host.

(** The function objects of the host are the two arrow functions [App]
    creates at each render, [() => setCount(count + 1)] and
    [() => setCount(count - 1)].  Each is closed over the [count] of the
    render that created it. *)
Inductive closure : Type :=
| onIncrement (count : Z)
| onDecrement (count : Z).

(** The cell of the [useState] hook: the state as of the last render and the
    updates dispatched since, oldest first. *)
Record hook : Type := { memoizedState : Z; queue : list Z }.

(** The counter is a JavaScript number, an IEEE 754 double, that starts at
    0 and moves by steps of one: it only ever holds integers.  These are
    taken in [Z], and the arithmetic of doubles is written out on them.

    [round z] is the double nearest to the integer [z]: [z] itself when it
    fits in 53 significant bits, and otherwise the multiple of the spacing
    of doubles at that magnitude nearest to it, a tie going to the even
    significand.  (The sums of this program stay far below the largest
    double, so no result is infinite.) *)
Definition round (z : Z) : Z :=
  let a := Z.abs z in
  let e := (Z.log2 a - 52)%Z in
  if (e <=? 0)%Z then z
  else
    let m := (2 ^ e)%Z in
    let q := (a / m)%Z in
    let r := (a mod m)%Z in
    let half := (m / 2)%Z in
    let q' := if (r <? half)%Z then q
              else if (half <? r)%Z then (q + 1)%Z
              else if Z.even q then q else (q + 1)%Z in
    (Z.sgn z * (q' * m))%Z.

(** [a + b] and [a - b] on numbers. *)
Definition number_add (a b : Z) : Z := round (a + b).

Definition number_sub (a b : Z) : Z := round (a - b).

(** [Number::toString] of a positive integer double.  [shortest a] is the
    decimal number with the fewest significant digits that rounds to [a],
    the nearest to [a] among such; up to 21 digits it is printed in full,
    and beyond that as its digits with an exponent. *)
Definition candidate (a n k : Z) : option Z :=
  let e := (n - k)%Z in
  if (e <? 0)%Z then None
  else
    let q := (a / 10 ^ e)%Z in
    let v1 := (q * 10 ^ e)%Z in
    let v2 := ((q + 1) * 10 ^ e)%Z in
    match Z.eqb (round v1) a, Z.eqb (round v2) a with
    | true, true =>
        Some (if (a - v1 <? v2 - a)%Z then v1
              else if (v2 - a <? a - v1)%Z then v2
              else if Z.even q then v1 else v2)
    | true, false => Some v1
    | false, true => Some v2
    | false, false => None
    end.

Definition shortest (a : Z) : Z :=
  let n := Z.of_nat (String.length (pretty a)) in
  let fix go (ks : list Z) : Z :=
    match ks with
    | [] => a
    | k :: rest =>
        match candidate a n k with
        | Some v => v
        | None => go rest
        end
    end in
  go [1; 2; 3; 4; 5; 6; 7; 8; 9; 10; 11; 12; 13; 14; 15; 16; 17]%Z.

Fixpoint strip_zeros (digits : list ascii) : list ascii :=
  match digits with
  | "0"%char :: rest => strip_zeros rest
  | _ => digits
  end.

Definition significant (s : string) : string :=
  string_of_list_ascii (rev (strip_zeros (rev (list_ascii_of_string s)))).

Definition positive_to_string (a : Z) : string :=
  let v := pretty (shortest a) in
  let n := String.length v in
  if (n <=? 21)%nat then v
  else
    match significant v with
    | EmptyString => v
    | String c rest =>
        String c (match rest with
                  | EmptyString => EmptyString
                  | String _ _ => "." +:+ rest
                  end)
        +:+ "e+" +:+ pretty (Z.of_nat n - 1)%Z
    end.

(** [Number::toString], of the double an integer stands for: up to 2^53 in
    magnitude every integer is a double and prints as its decimal
    expansion. *)
Definition number_to_string (z : Z) : string :=
  let d := round z in
  if (Z.abs d <=? 2 ^ 53)%Z then pretty d
  else if (d <? 0)%Z then "-" +:+ positive_to_string (- d)
  else positive_to_string d.

#[export] Instance Z_Number : Number Z := {
  NumberToString := number_to_string;
  NumberToBoolean z := negb (Z.eqb z 0)
}.

(** [setCount(v)]: queue the update that replaces the state by [v].  (A
    setter of a component that was never mounted has no cell to update.) *)
Definition setCount (v : Z) (h : option hook) : option hook :=
  (fun c => {| memoizedState := memoizedState c; queue := queue c ++ [v] |}) <$> h.

#[export] Instance closure_Callable : Callable closure (option hook) := {
  call f h :=
    match f with
    | onIncrement count => Normal (setCount (number_add count 1) h)
    | onDecrement count => Normal (setCount (number_sub count 1) h)
    end
}.

(** [useState(initialState)], of which [App] uses the state; the setter it
    returns with it is [setCount] above.  The first render creates the cell;
    a later render applies the queued updates in order, each replacing the
    state by its value, and empties the queue. *)
Definition useState (initialState : Z) : Render (option hook) Z :=
  fun h =>
    match h with
    | None => (initialState, Some {| memoizedState := initialState; queue := [] |})
    | Some c =>
        let s := fold_left (fun _ action => action) (queue c) (memoizedState c) in
        (s, Some {| memoizedState := s; queue := [] |})
    end.

(** [function App()] *)
Definition App : Render (option hook) (element Z closure) :=
  bind (useState 0) (fun count =>
    ret (EFragment
      [ EHost "h1" ∅ [EValue (VStr "Hello from React component")];
        ESuspense (EValue (VStr "Loading Counter..."))
          [ ELazy {[ "count" := VNum count;
                     "onIncrement" := VFun (onIncrement count);
                     "onDecrement" := VFun (onDecrement count) ]} ] ])).

(** The promise of [import('app2/Counter')]: pending, then fulfilled with
    the remote module or rejected. *)
Inductive status : Type :=
| Pending
| Resolved
| Rejected.

(** [const Counter = React.lazy(() => import('app2/Counter'))]: rendering
    it suspends until the remote module is there, then renders the module's
    default export, the [Counter] of app2; after a rejected import it throws
    the error of the rejection.  The component has no hook, so it runs on
    an empty state of its own. *)
Definition Counter (st : status) (props : gmap string (value Z closure))
    : attempt (list (node Z closure)) :=
  match st with
  | Pending => Suspended
  | Resolved => render (fun _ => Suspended) (fst (Remote.Counter props tt))
  | Rejected => Failed
  end.

(** The page: the hook of [App] ([None] once the root is unmounted), the
    state of the import, and the DOM below the root as last committed. *)
Record page : Type := {
  hooks : option hook;
  remote : status;
  document : list (node Z closure)
}.

(** One render of [App] and its commit to the DOM.  An error thrown while
    rendering meets no error boundary in this tree: React then unmounts the
    whole root, and the state of its components goes with it. *)
Definition commit (st : status) (h : option hook) : page :=
  let (tree, h') := App h in
  match render (Counter st) tree with
  | Ready ns => {| hooks := h'; remote := st; document := ns |}
  | Suspended => {| hooks := h'; remote := st; document := [] |}
  | Failed => {| hooks := None; remote := st; document := [] |}
  end.

(** [ReactDOM.render(<App />, document.getElementById('root'))]: the first
    render starts the import, which is pending. *)
Definition mount : page := commit Pending None.

(** The import is fulfilled and React renders again.  A promise settles
    once: on a page whose import is no longer pending nothing happens. *)
Definition resolve (p : page) : page :=
  match remote p with
  | Pending => commit Resolved (hooks p)
  | Resolved | Rejected => p
  end.

(** The import is rejected and React renders again, into the error. *)
Definition reject (p : page) : page :=
  match remote p with
  | Pending => commit Rejected (hooks p)
  | Resolved | Rejected => p
  end.

(** A click on the control labelled [label]: React runs the listener, with
    the updates it dispatches batched, then renders and commits. *)
Definition click (label : string) (p : page) : outcome page :=
  match activate label (document p) (hooks p) with
  | Normal h => Normal (commit (remote p) h)
  | Throw message => Throw message
  end.

Inductive event : Type :=
| Resolve
| Reject
| Click (label : string).

Definition step (e : event) (p : page) : outcome page :=
  match e with
  | Resolve => Normal (resolve p)
  | Reject => Normal (reject p)
  | Click label => click label p
  end.

Fixpoint run (es : list event) (p : page) : outcome page :=
  match es with
  | [] => Normal p
  | e :: rest =>
      match step e p with
      | Normal p' => run rest p'
      | Throw message => Throw message
      end
  end.

(** The text of the paragraph on the page, if there is one. *)
Definition displayed (p : page) : option string :=
  textContent <$> querySelector "p" (document p).

(** The state [App] would read at its next render. *)
Definition count (p : page) : option Z :=
  (fun c => fold_left (fun _ action => action) (queue c) (memoizedState c)) <$> hooks p.

End Host.

(** ** Vocabulary of the statements *)

(** The two controls a user can activate, and the label each is found by. *)
Inductive activation : Type :=
| Increment
| Decrement.

Definition label (a : activation) : string :=
  match a with
  | Increment => "Increment"
  | Decrement => "Decrement"
  end.

Definition activation_eq_dec (a b : activation) : {a = b} + {a <> b}.
Proof. decide equality. Defined.

Definition clicks (acts : list activation) : list Host.event :=
  map (fun a => Host.Click (label a)) acts.

(** The listener of the control under a label, [undefined] without one. *)
Definition listener {number fn : Type} `{Number number}
    (l : string) (doc : list (node number fn)) : value number fn :=
  match control l doc with
  | Some n => get (node_props n) "onClick"
  | None => VUndefined
  end.

(** The props [App] passes down at the render that reads the count [c]. *)
Definition props_at (c : Z) : gmap string (value Z Host.closure) :=
  {[ "count" := VNum c;
     "onIncrement" := VFun (Host.onIncrement c);
     "onDecrement" := VFun (Host.onDecrement c) ]}.

(** What the remote component adds to the page of a host whose count is [c]. *)
Definition Counter_output (c : Z) : list (node Z Host.closure) :=
  match Host.Counter Host.Resolved (props_at c) with
  | Ready ns => ns
  | Suspended | Failed => []
  end.

(** The fallback text is on the page. *)
Definition fallback_shown (p : Host.page) : Prop :=
  In (TextNode "Loading Counter...") (all_nodes (Host.document p)).

(** The whole output of the component for the count [c] is on the page. *)
Definition Counter_shown (c : Z) (p : Host.page) : Prop :=
  exists before after, Host.document p = before ++ Counter_output c ++ after.

(** No node the component renders for the host, at any count, is on the page. *)
Definition Counter_absent (p : Host.page) : Prop :=
  forall c n, In n (all_nodes (Counter_output c)) -> ~ In n (all_nodes (Host.document p)).

(** The count a click on [l] leaves, on a page that shows the controls. *)
Definition after_click (l : string) (c : Z) : Z :=
  if String.eqb l "Increment" then Host.number_add c 1
  else if String.eqb l "Decrement" then Host.number_sub c 1
  else c.

(** The hook holding [c] with nothing queued, and the page committed from it
    once the remote module is there. *)
Definition cell (c : Z) : option Host.hook :=
  Some {| Host.memoizedState := c; Host.queue := [] |}.

Definition resolved_page (c : Z) : Host.page := Host.commit Host.Resolved (cell c).

(** The page after a failed import: the root is unmounted. *)
Definition unmounted : Host.page :=
  {| Host.hooks := None; Host.remote := Host.Rejected; Host.document := [] |}.

(** How the import stands after some events: its first settlement counts. *)
Fixpoint import_state (es : list Host.event) : Host.status :=
  match es with
  | [] => Host.Pending
  | Host.Resolve :: _ => Host.Resolved
  | Host.Reject :: _ => Host.Rejected
  | Host.Click _ :: rest => import_state rest
  end.

(** The integers between which every integer is a double, so that adding
    and subtracting one is exact short of the two ends. *)
Definition safe (c : Z) : Prop := (- (2 ^ 53) <= c <= 2 ^ 53)%Z.

(** Increments minus decrements of a sequence of activations. *)
Definition difference (acts : list activation) : Z :=
  (Z.of_nat (count_occ activation_eq_dec acts Increment)
   - Z.of_nat (count_occ activation_eq_dec acts Decrement))%Z.

(** The difference stays among the safe integers all along the sequence. *)
Definition stays_safe (acts : list activation) : Prop :=
  forall k : nat, safe (difference (firstn k acts)).

(** A function that throws, as a caller of [Counter] may pass one:
    [() => { throw new Error("boom") }]. *)
Inductive thrower : Type :=
| boom.

#[export] Instance thrower_Callable : Callable thrower unit := {
  call _ _ := Throw "boom"
}.

(** Numbers that are no integers, for instances of the statements about
    [Counter]: [Half z] is [z + 0.5]. *)
Inductive sample_number : Type :=
| Whole (z : Z)
| Half (z : Z)
| NaN.

#[export] Instance sample_Number : Number sample_number := {
  NumberToString n :=
    match n with
    | Whole z => pretty z
    | Half z => if Z.ltb z 0 then "-" +:+ pretty (- z - 1)%Z +:+ ".5" else pretty z +:+ ".5"
    | NaN => "NaN"
    end;
  NumberToBoolean n :=
    match n with
    | Whole z => negb (Z.eqb z 0)
    | Half _ => true
    | NaN => false
    end
}.

(** The prop of [Counter] that holds the listener of each control. *)
Definition handler_prop (a : activation) : string :=
  match a with
  | Increment => "onIncrement"
  | Decrement => "onDecrement"
  end.

(** The callbacks [fs] called one after the other with no render in
    between, as within one batch of React. *)
Definition call_all (fs : list Host.closure) (h : option Host.hook) : outcome (option Host.hook) :=
  fold_left (fun o f => match o with
                        | Normal h' => call (Callable := Host.closure_Callable) f h'
                        | Throw message => Throw message
                        end) fs (Normal h).

(** The characters of a printed number: digits, the signs, the point and
    the exponent mark. *)
Definition numeric_char (a : ascii) : bool :=
  Ascii.eqb a "-"%char || Ascii.eqb a "+"%char || Ascii.eqb a "."%char
  || Ascii.eqb a "e"%char
  || (Nat.leb 48 (Ascii.nat_of_ascii a) && Nat.leb (Ascii.nat_of_ascii a) 57).

Fixpoint numeric (s : string) : bool :=
  match s with
  | EmptyString => true
  | String a rest => numeric_char a && numeric rest
  end.

(** * Properties *)

Local Open Scope Z_scope.

(** ** The remote component *)

Section CounterFacts.
Context {number fn W : Type} `{Number number}.
Implicit Types (props : gmap string (value number fn)) (w : W).

(** The nodes [Counter] renders to. *)
Lemma render_Counter lazy props w :
  render lazy (fst (Remote.Counter props w)) =
  Ready [ ElementNode "p" ∅ (TextNode "Count: " :: render_value (get props "count"));
          ElementNode "button" {[ "onClick" := get props "onIncrement" ]} [TextNode "Increment"];
          ElementNode "button" {[ "onClick" := get props "onDecrement" ]} [TextNode "Decrement"] ].
Proof.
  cbn [Remote.Counter ret fst render render_children render_value app].
  now rewrite app_nil_r.
Qed.

Lemma control_Increment (v i d : value number fn) :
  control "Increment"
    [ ElementNode "p" ∅ (TextNode "Count: " :: render_value v);
      ElementNode "button" {[ "onClick" := i ]} [TextNode "Increment"];
      ElementNode "button" {[ "onClick" := d ]} [TextNode "Decrement"] ]
  = Some (ElementNode "button" {[ "onClick" := i ]} [TextNode "Increment"]).
Proof. destruct v; reflexivity. Qed.

Lemma control_Decrement (v i d : value number fn) :
  control "Decrement"
    [ ElementNode "p" ∅ (TextNode "Count: " :: render_value v);
      ElementNode "button" {[ "onClick" := i ]} [TextNode "Increment"];
      ElementNode "button" {[ "onClick" := d ]} [TextNode "Decrement"] ]
  = Some (ElementNode "button" {[ "onClick" := d ]} [TextNode "Decrement"]).
Proof. destruct v; reflexivity. Qed.

Lemma control_other (l : string) (v i d : value number fn) :
  l <> "Increment" -> l <> "Decrement" ->
  control l
    [ ElementNode "p" ∅ (TextNode "Count: " :: render_value v);
      ElementNode "button" {[ "onClick" := i ]} [TextNode "Increment"];
      ElementNode "button" {[ "onClick" := d ]} [TextNode "Decrement"] ]
  = None.
Proof.
  intros Hi Hd. unfold control.
  assert (String.eqb "Increment" l = false) as Ei
    by (apply String.eqb_neq; congruence).
  assert (String.eqb "Decrement" l = false) as Ed
    by (apply String.eqb_neq; congruence).
  destruct v;
    cbn [all_nodes flat_map descendants render_value app find has_tag
         textContent map String.concat];
    rewrite Ei, Ed; reflexivity.
Qed.

Lemma onClick_singleton (v : value number fn) :
  get ({[ "onClick" := v ]} : gmap string (value number fn)) "onClick" = v.
Proof. unfold get. now rewrite lookup_singleton_eq. Qed.

End CounterFacts.

(** C2.  Given a count [n] and two functions [f] and [g] as [onIncrement]
    and [onDecrement], [Counter] renders three nodes: a paragraph whose text
    is ["Count: "] followed by the count, the control labelled "Increment",
    whose activation is the call of [f], and the control labelled
    "Decrement", whose activation is the call of [g]. *)
Theorem Counter_renders_count_and_controls
    {number fn W world : Type} `{Number number} `{Callable fn world}
    (props : gmap string (value number fn)) (n : number) (f g : fn) (w0 : W)
    (lazy : gmap string (value number fn) -> attempt (list (node number fn))) :
  get props "count" = VNum n ->
  get props "onIncrement" = VFun f ->
  get props "onDecrement" = VFun g ->
  exists text increment decrement,
    render lazy (fst (Remote.Counter props w0)) = Ready [text; increment; decrement]
    /\ has_tag "p" text = true
    /\ textContent text = "Count: " +:+ NumberToString n
    /\ control "Increment" [text; increment; decrement] = Some increment
    /\ textContent increment = "Increment"
    /\ (forall w : world, activate "Increment" [text; increment; decrement] w = call f w)
    /\ control "Decrement" [text; increment; decrement] = Some decrement
    /\ textContent decrement = "Decrement"
    /\ (forall w : world, activate "Decrement" [text; increment; decrement] w = call g w).
Proof.
  intros Hn Hf Hg.
  eexists _, _, _. split; [apply render_Counter|].
  rewrite Hn, Hf, Hg.
  repeat apply conj.
  - reflexivity.
  - reflexivity.
  - apply control_Increment.
  - reflexivity.
  - intros w. unfold activate. rewrite control_Increment.
    cbn [node_props]. now rewrite onClick_singleton.
  - apply control_Decrement.
  - reflexivity.
  - intros w. unfold activate. rewrite control_Decrement.
    cbn [node_props]. now rewrite onClick_singleton.
Qed.

(** When [onIncrement] and [onDecrement] are functions, activating a
    control of the rendered component is the call of the function and
    nothing else. *)
Lemma activation_is_the_call
    {number fn W world : Type} `{Number number} `{Callable fn world}
    (props : gmap string (value number fn)) (f g : fn) (w0 : W)
    (lazy : gmap string (value number fn) -> attempt (list (node number fn))) :
  get props "onIncrement" = VFun f ->
  get props "onDecrement" = VFun g ->
  exists doc,
    render lazy (fst (Remote.Counter props w0)) = Ready doc
    /\ forall w : world,
         activate "Increment" doc w = call f w
         /\ activate "Decrement" doc w = call g w.
Proof.
  intros Hf Hg. eexists. split; [apply render_Counter|].
  intros w. rewrite Hf, Hg. unfold activate.
  rewrite control_Increment, control_Decrement. cbn [node_props].
  now rewrite !onClick_singleton.
Qed.

(** C9.  Whatever number [n] the [count] prop holds, and whatever its
    string form, the paragraph holds the text "Count: " and the string form
    of [n], untouched: its text is the one followed by the other. *)
Theorem Counter_displays_any_number
    {number fn W : Type} `{Number number}
    (props : gmap string (value number fn)) (n : number) (w : W)
    (lazy : gmap string (value number fn) -> attempt (list (node number fn))) :
  get props "count" = VNum n ->
  exists text controls,
    render lazy (fst (Remote.Counter props w)) = Ready (text :: controls)
    /\ text = ElementNode "p" ∅ [TextNode "Count: "; TextNode (NumberToString n)]
    /\ textContent text = "Count: " +:+ NumberToString n.
Proof.
  intros Hn. rewrite render_Counter, Hn.
  eexists _, _. split; [reflexivity|]. split; reflexivity.
Qed.

(** C10.  Two props objects that agree on [count], [onIncrement] and
    [onDecrement] give the same element, in any state and whatever else
    they hold, and so the same nodes. *)
Theorem Counter_depends_on_three_props
    {number fn W : Type} `{Number number}
    (props props' : gmap string (value number fn)) (w : W)
    (lazy : gmap string (value number fn) -> attempt (list (node number fn))) :
  get props "count" = get props' "count" ->
  get props "onIncrement" = get props' "onIncrement" ->
  get props "onDecrement" = get props' "onDecrement" ->
  Remote.Counter props w = Remote.Counter props' w
  /\ render lazy (fst (Remote.Counter props w)) = render lazy (fst (Remote.Counter props' w)).
Proof.
  intros Hc Hi Hd.
  assert (Remote.Counter props w = Remote.Counter props' w) as E.
  { unfold Remote.Counter. now rewrite Hc, Hi, Hd. }
  split; [exact E|]. now rewrite E.
Qed.

(** ** The host *)

Import Host.

(** *** The arithmetic of the counter *)

(** Among the safe integers rounding changes nothing. *)
Lemma round_safe z : safe z -> round z = z.
Proof.
  unfold safe. intros Hz.
  destruct (Z.eq_dec (Z.abs z) (2 ^ 53)) as [Hend|Hin].
  - assert (z = 2 ^ 53 \/ z = - (2 ^ 53)) as [->| ->] by lia; reflexivity.
  - unfold round.
    assert (Z.log2 (Z.abs z) - 52 <= 0) as He.
    { destruct (Z.eq_dec (Z.abs z) 0) as [->|Hnz]; [cbn; lia|].
      assert (Z.log2 (Z.abs z) < 53); [|lia].
      apply Z.log2_lt_pow2; lia. }
    apply Z.leb_le in He. now rewrite He.
Qed.

(** Adding one is exact below 2^53 and changes nothing at 2^53;
    subtracting one is exact above -2^53 and changes nothing at -2^53. *)
Lemma number_add_one c : safe c -> number_add c 1 = Z.min (c + 1) (2 ^ 53).
Proof.
  unfold safe. intros Hc. unfold number_add.
  destruct (Z.eq_dec c (2 ^ 53)) as [->|Hne]; [reflexivity|].
  rewrite round_safe by (unfold safe; lia). lia.
Qed.

Lemma number_sub_one c : safe c -> number_sub c 1 = Z.max (c - 1) (- (2 ^ 53)).
Proof.
  unfold safe. intros Hc. unfold number_sub.
  destruct (Z.eq_dec c (- (2 ^ 53))) as [->|Hne]; [reflexivity|].
  rewrite round_safe by (unfold safe; lia). lia.
Qed.

Lemma number_to_string_safe c : safe c -> number_to_string c = pretty c.
Proof.
  intros Hc. unfold number_to_string. rewrite round_safe by assumption.
  unfold safe in Hc. cbv zeta.
  assert ((Z.abs c <=? 2 ^ 53) = true) as -> by (apply Z.leb_le; lia).
  reflexivity.
Qed.

(** *** The pages the host can be on *)

Lemma mount_page :
  mount = {| hooks := cell 0;
             remote := Pending;
             document := [ ElementNode "h1" ∅ [TextNode "Hello from React component"];
                           TextNode "Loading Counter..." ] |}.
Proof. reflexivity. Qed.

Lemma Counter_output_nodes c :
  Counter_output c =
  [ ElementNode "p" ∅ [TextNode "Count: "; TextNode (number_to_string c)];
    ElementNode "button" {[ "onClick" := VFun (onIncrement c) ]} [TextNode "Increment"];
    ElementNode "button" {[ "onClick" := VFun (onDecrement c) ]} [TextNode "Decrement"] ].
Proof. reflexivity. Qed.

Lemma resolved_page_fields c :
  resolved_page c =
  {| hooks := cell c;
     remote := Resolved;
     document := ElementNode "h1" ∅ [TextNode "Hello from React component"]
                 :: Counter_output c |}.
Proof. reflexivity. Qed.

Lemma unmounted_page : commit Rejected None = unmounted.
Proof. reflexivity. Qed.

(** A render applies the queued updates, the last one winning, unless it
    runs into the failed import. *)
Lemma count_commit st (m : Z) (q : list Z) :
  count (commit st (Some {| memoizedState := m; queue := q |})) =
  match st with
  | Pending | Resolved => Some (fold_left (fun _ action => action) q m)
  | Rejected => None
  end.
Proof. destruct st; reflexivity. Qed.

Lemma count_resolved_page c : count (resolved_page c) = Some c.
Proof. reflexivity. Qed.

Lemma displayed_resolved_page c :
  displayed (resolved_page c) = Some ("Count: " +:+ number_to_string c).
Proof. reflexivity. Qed.

Lemma displayed_safe_page c :
  safe c -> displayed (resolved_page c) = Some ("Count: " +:+ pretty c).
Proof. intros Hc. now rewrite displayed_resolved_page, number_to_string_safe. Qed.

Lemma resolved_page_inj c c' : resolved_page c = resolved_page c' -> c = c'.
Proof.
  intros E. apply (f_equal count) in E.
  rewrite !count_resolved_page in E. now injection E.
Qed.

Lemma Normal_inj {A : Type} (a b : A) : Normal a = Normal b -> a = b.
Proof. intros E. now injection E. Qed.

(** *** Steps *)

Lemma step_mount e :
  step e mount =
  Normal (match e with
          | Resolve => resolved_page 0
          | Reject => unmounted
          | Click _ => mount
          end).
Proof. destruct e; reflexivity. Qed.

Lemma step_unmounted e : step e unmounted = Normal unmounted.
Proof. destruct e; reflexivity. Qed.

Lemma click_resolved_page l c :
  click l (resolved_page c) = Normal (resolved_page (after_click l c)).
Proof.
  unfold after_click.
  destruct (String.eqb_spec l "Increment") as [->|Hi]; [reflexivity|].
  destruct (String.eqb_spec l "Decrement") as [->|Hd]; [reflexivity|].
  unfold click, activate.
  change (document (resolved_page c)) with
    (ElementNode "h1" ∅ [TextNode "Hello from React component"]
       :: [ ElementNode "p" ∅ (TextNode "Count: " :: render_value (VNum c));
            ElementNode "button" {[ "onClick" := VFun (onIncrement c) ]} [TextNode "Increment"];
            ElementNode "button" {[ "onClick" := VFun (onDecrement c) ]} [TextNode "Decrement"] ]).
  assert (forall doc : list (node Z closure),
            control l (ElementNode "h1" ∅ [TextNode "Hello from React component"] :: doc)
            = control l doc) as Skip by reflexivity.
  rewrite Skip, control_other by assumption.
  reflexivity.
Qed.

Lemma step_resolved_page e c :
  step e (resolved_page c) =
  Normal (resolved_page (match e with
                         | Resolve | Reject => c
                         | Click l => after_click l c
                         end)).
Proof. destruct e; [reflexivity | reflexivity | apply click_resolved_page]. Qed.

Lemma after_click_label a c :
  safe c ->
  after_click (label a) c =
  match a with
  | Increment => Z.min (c + 1) (2 ^ 53)
  | Decrement => Z.max (c - 1) (- (2 ^ 53))
  end.
Proof.
  intros Hc. destruct a; cbn [label]; unfold after_click; cbn [String.eqb Ascii.eqb Bool.eqb].
  - now apply number_add_one.
  - now apply number_sub_one.
Qed.

(** A click keeps the count safe and moves it by one at most. *)
Lemma after_click_safe l c :
  safe c -> safe (after_click l c) /\ Z.abs (after_click l c - c) <= 1.
Proof.
  intros Hc. unfold after_click.
  destruct (String.eqb l "Increment"); [rewrite number_add_one by assumption|].
  2: destruct (String.eqb l "Decrement"); [rewrite number_sub_one by assumption|].
  all: unfold safe in *; lia.
Qed.

(** *** Runs *)

Lemma run_cons e es p :
  run (e :: es) p =
  match step e p with
  | Normal p' => run es p'
  | Throw message => Throw message
  end.
Proof. reflexivity. Qed.

Lemma run_app es es' p :
  run (es ++ es') p =
  match run es p with
  | Normal p' => run es' p'
  | Throw message => Throw message
  end.
Proof.
  revert p. induction es as [|e es IH]; intros p; cbn [run app]; [reflexivity|].
  destruct (step e p); [apply IH | reflexivity].
Qed.

Lemma run_unmounted es : run es unmounted = Normal unmounted.
Proof.
  induction es as [|e es IH]; [reflexivity|].
  now rewrite run_cons, step_unmounted.
Qed.

Lemma run_resolved_page es c :
  safe c ->
  exists c', run es (resolved_page c) = Normal (resolved_page c')
    /\ safe c' /\ Z.abs (c' - c) <= Z.of_nat (length es).
Proof.
  revert c. induction es as [|e es IH]; intros c Hc.
  - exists c. cbn [run length]. split; [reflexivity|]. split; [assumption | lia].
  - rewrite run_cons, step_resolved_page.
    set (c1 := match e with Resolve | Reject => c | Click l => after_click l c end).
    assert (safe c1 /\ Z.abs (c1 - c) <= 1) as [Hc1 Hnear].
    { subst c1. destruct e as [| |l]; [split; [assumption|lia]..|].
      now apply after_click_safe. }
    destruct (IH c1 Hc1) as (c' & Hrun & Hc' & Hlen).
    exists c'. cbn [length]. split; [exact Hrun|]. split; [assumption | lia].
Qed.

(** Every run from the mount ends, without a throw, on one of three pages:
    the mounted one while the import is pending, a resolved one with a safe
    count once it is fulfilled, the unmounted one once it has failed. *)
Lemma run_mount es :
  exists p, run es mount = Normal p
    /\ match import_state es with
       | Pending => p = mount
       | Resolved =>
           exists c, p = resolved_page c /\ safe c
                     /\ Z.abs c <= Z.of_nat (length es)
       | Rejected => p = unmounted
       end.
Proof.
  assert (safe 0) as H0 by (unfold safe; lia).
  induction es as [|e es IH].
  - exists mount. split; reflexivity.
  - rewrite run_cons, step_mount. destruct e as [| |l]; cbn [import_state length].
    + destruct (run_resolved_page es 0 H0) as (c & Hrun & Hc & Hlen).
      exists (resolved_page c). split; [exact Hrun|].
      exists c. split; [reflexivity|]. split; [assumption | lia].
    + exists unmounted. split; [apply run_unmounted | reflexivity].
    + destruct IH as (p & Hp & Hshape). exists p. split; [exact Hp|].
      destruct (import_state es); [assumption | | assumption].
      destruct Hshape as (c & -> & Hc & Hlen).
      exists c. split; [reflexivity|]. split; [assumption | lia].
Qed.

Lemma remote_mount : remote mount = Pending.
Proof. reflexivity. Qed.

Lemma remote_resolved_page c : remote (resolved_page c) = Resolved.
Proof. reflexivity. Qed.

Lemma difference_nil : difference [] = 0.
Proof. reflexivity. Qed.

Lemma difference_cons a acts :
  difference (a :: acts) =
  match a with Increment => 1 | Decrement => -1 end + difference acts.
Proof.
  unfold difference. destruct a.
  - rewrite count_occ_cons_eq, count_occ_cons_neq by congruence. lia.
  - rewrite count_occ_cons_neq, count_occ_cons_eq by congruence. lia.
Qed.

(** While the count stays safe, a run of activations adds their difference. *)
Lemma run_clicks acts c :
  (forall k : nat, safe (c + difference (firstn k acts))) ->
  run (clicks acts) (resolved_page c) = Normal (resolved_page (c + difference acts)).
Proof.
  revert c. induction acts as [|a acts IH]; intros c Hsafe.
  - cbn [clicks map run]. rewrite difference_nil. do 2 f_equal. lia.
  - pose proof (Hsafe O) as Hc. pose proof (Hsafe 1%nat) as Hc1.
    cbn [firstn] in Hc, Hc1.
    rewrite difference_nil in Hc.
    change (firstn 0 acts) with (@nil activation) in Hc1.
    rewrite difference_cons, difference_nil in Hc1.
    replace (c + 0) with c in Hc by lia.
    change (clicks (a :: acts)) with (Click (label a) :: clicks acts).
    rewrite run_cons, step_resolved_page, after_click_label by assumption.
    set (d := match a with Increment => 1 | Decrement => -1 end) in *.
    assert (match a with
            | Increment => Z.min (c + 1) (2 ^ 53)
            | Decrement => Z.max (c - 1) (- (2 ^ 53))
            end = c + d) as ->.
    { subst d. unfold safe in *. destruct a; lia. }
    rewrite IH.
    + do 2 f_equal. rewrite difference_cons. fold d. lia.
    + intros k. pose proof (Hsafe (S k)) as Hk. cbn [firstn] in Hk.
      rewrite difference_cons in Hk. fold d in Hk.
      now rewrite <- Z.add_assoc.
Qed.

(** Increments alone count up to 2^53 and stay there; decrements alone
    count down to -2^53 and stay there. *)
Lemma run_increments (n : nat) c :
  safe c ->
  run (clicks (repeat Increment n)) (resolved_page c)
  = Normal (resolved_page (Z.min (c + Z.of_nat n) (2 ^ 53))).
Proof.
  revert c. induction n as [|n IH]; intros c Hc.
  - cbn [repeat clicks map run]. do 2 f_equal. unfold safe in Hc. lia.
  - change (clicks (repeat Increment (S n)))
      with (Click (label Increment) :: clicks (repeat Increment n)).
    rewrite run_cons, step_resolved_page, after_click_label by assumption.
    rewrite IH by (unfold safe in *; lia).
    do 2 f_equal. lia.
Qed.

Lemma run_decrements (n : nat) c :
  safe c ->
  run (clicks (repeat Decrement n)) (resolved_page c)
  = Normal (resolved_page (Z.max (c - Z.of_nat n) (- (2 ^ 53)))).
Proof.
  revert c. induction n as [|n IH]; intros c Hc.
  - cbn [repeat clicks map run]. do 2 f_equal. unfold safe in Hc. lia.
  - change (clicks (repeat Decrement (S n)))
      with (Click (label Decrement) :: clicks (repeat Decrement n)).
    rewrite run_cons, step_resolved_page, after_click_label by assumption.
    rewrite IH by (unfold safe in *; lia).
    do 2 f_equal. lia.
Qed.

(** A sequence of at most 2^53 activations stays safe. *)
Lemma difference_within_length acts : Z.abs (difference acts) <= Z.of_nat (length acts).
Proof.
  induction acts as [|a acts IH].
  - unfold difference. cbn. lia.
  - rewrite difference_cons. cbn [length]. destruct a; lia.
Qed.

Lemma short_sequences_stay_safe acts :
  Z.of_nat (length acts) <= 2 ^ 53 -> stays_safe acts.
Proof.
  intros Hlen k.
  pose proof (difference_within_length (firstn k acts)) as Hk.
  pose proof (length_take acts k) as Hf.
  unfold safe. lia.
Qed.

(** Clicks before the import is fulfilled find no control. *)
Lemma run_clicks_mount (ls : list string) : run (map Click ls) mount = Normal mount.
Proof.
  induction ls as [|l ls IH]; cbn [map run]; [reflexivity|].
  now rewrite step_mount.
Qed.

(** *** The printed form of a count *)

Lemma numeric_app (a b : string) : numeric (a +:+ b) = numeric a && numeric b.
Proof.
  induction a as [|x a IH]; [reflexivity|].
  change (numeric (String x a +:+ b)) with (numeric_char x && numeric (a +:+ b)).
  cbn [numeric]. now rewrite IH, andb_assoc.
Qed.

Lemma numeric_pretty_N_go (x : N) (s : string) :
  numeric s = true -> numeric (pretty_N_go x s) = true.
Proof.
  revert s. induction (N.lt_wf_0 x) as [x _ IH]. intros s Hs.
  destruct (N.eq_dec x 0%N) as [->|Hx].
  - now rewrite pretty_N_go_0.
  - rewrite pretty_N_go_step by lia.
    apply IH; [apply N.div_lt; lia|].
    cbn [numeric]. rewrite Hs.
    unfold pretty_N_char. repeat case_match; reflexivity.
Qed.

Lemma numeric_pretty (z : Z) : numeric (pretty z) = true.
Proof.
  assert (forall x : positive, numeric (pretty x) = true) as Hpos.
  { intros x. unfold pretty, pretty_positive, pretty, pretty_N.
    destruct (decide (N.pos x = 0%N)); [reflexivity|].
    now apply numeric_pretty_N_go. }
  destruct z as [|x|x]; [reflexivity | apply Hpos |].
  change (pretty (Z.neg x)) with (String "-"%char (pretty x)).
  cbn [numeric]. now rewrite Hpos.
Qed.

Lemma numeric_of_list (l : list ascii) :
  numeric (string_of_list_ascii l) = forallb numeric_char l.
Proof. induction l as [|a l IH]; [reflexivity|]. cbn. now rewrite IH. Qed.

Lemma numeric_to_list (s : string) :
  forallb numeric_char (list_ascii_of_string s) = numeric s.
Proof. induction s as [|a s IH]; [reflexivity|]. cbn. now rewrite IH. Qed.

Lemma forallb_rev {A : Type} (f : A -> bool) (l : list A) :
  forallb f (rev l) = forallb f l.
Proof.
  induction l as [|a l IH]; [reflexivity|].
  cbn [rev forallb]. rewrite forallb_app, IH. cbn [forallb].
  rewrite andb_true_r. apply andb_comm.
Qed.

Lemma forallb_strip_zeros (l : list ascii) :
  forallb numeric_char l = true -> forallb numeric_char (strip_zeros l) = true.
Proof.
  induction l as [|a l IH]; [trivial|].
  intros Hl. pose proof Hl as Hl'. cbn [forallb] in Hl'.
  apply andb_true_iff in Hl' as [_ Hrest].
  destruct a as [[] [] [] [] [] [] [] []]; cbn [strip_zeros]; auto.
Qed.

Lemma numeric_significant (s : string) :
  numeric s = true -> numeric (significant s) = true.
Proof.
  intros Hs. unfold significant.
  rewrite numeric_of_list, forallb_rev.
  apply forallb_strip_zeros. now rewrite forallb_rev, numeric_to_list.
Qed.

Lemma numeric_positive_to_string (a : Z) : numeric (positive_to_string a) = true.
Proof.
  unfold positive_to_string.
  pose proof (numeric_pretty (shortest a)) as Hv.
  destruct (String.length (pretty (shortest a)) <=? 21)%nat; [exact Hv|].
  pose proof (numeric_significant _ Hv) as Hd.
  destruct (significant (pretty (shortest a))) as [|c rest]; [exact Hv|].
  cbn [numeric] in Hd. apply andb_true_iff in Hd as [Hc Hrest].
  rewrite !numeric_app, numeric_pretty.
  change (numeric "e+") with true.
  cbn [numeric]. rewrite Hc. cbn [andb]. rewrite andb_true_r.
  destruct rest as [|c' rest']; [reflexivity|].
  now rewrite numeric_app, Hrest.
Qed.

Lemma numeric_number_to_string (z : Z) : numeric (number_to_string z) = true.
Proof.
  unfold number_to_string. cbv zeta.
  destruct (Z.abs (round z) <=? 2 ^ 53); [apply numeric_pretty|].
  destruct (round z <? 0); [|apply numeric_positive_to_string].
  rewrite numeric_app. now rewrite numeric_positive_to_string.
Qed.

Lemma number_not_words (z : Z) (s : string) :
  numeric s = false -> number_to_string z <> s.
Proof. intros Hs E. rewrite <- E, numeric_number_to_string in Hs. discriminate. Qed.

(** *** What the page shows *)

Lemma mount_shows_fallback : fallback_shown mount.
Proof. unfold fallback_shown. rewrite mount_page. cbn. tauto. Qed.

Lemma mount_without_Counter : Counter_absent mount.
Proof.
  intros c n Hn Hm. rewrite Counter_output_nodes in Hn. rewrite mount_page in Hm.
  cbn [document all_nodes flat_map descendants app In] in Hn, Hm.
  assert (number_to_string c <> "Hello from React component") as P1
    by now apply number_not_words.
  assert (number_to_string c <> "Loading Counter...") as P2
    by now apply number_not_words.
  destruct Hm as [<-|[<-|[<-|[]]]];
    repeat (destruct Hn as [Hn|Hn]); try discriminate Hn; try contradiction;
    injection Hn as Hn; congruence.
Qed.

Lemma resolved_page_without_fallback c : ~ fallback_shown (resolved_page c).
Proof.
  unfold fallback_shown. rewrite resolved_page_fields, Counter_output_nodes.
  cbn [document all_nodes flat_map descendants app In].
  assert (number_to_string c <> "Loading Counter...") as P
    by now apply number_not_words.
  intros Hn.
  repeat (destruct Hn as [Hn|Hn]); try discriminate Hn; try contradiction.
  injection Hn as Hn. congruence.
Qed.

Lemma unmounted_without_fallback : ~ fallback_shown unmounted.
Proof. intros []. Qed.

Lemma resolved_page_shows_Counter c : Counter_shown c (resolved_page c).
Proof.
  exists [ElementNode "h1" ∅ [TextNode "Hello from React component"]], [].
  rewrite resolved_page_fields, app_nil_r. reflexivity.
Qed.

Lemma Counter_shown_not_absent c p : Counter_shown c p -> ~ Counter_absent p.
Proof.
  intros (before & after & Hdoc) Habs.
  apply (Habs c (ElementNode "p" ∅ [TextNode "Count: "; TextNode (number_to_string c)])).
  - rewrite Counter_output_nodes. now left.
  - unfold all_nodes. rewrite Hdoc, Counter_output_nodes.
    rewrite !flat_map_app. apply in_or_app. right. apply in_or_app. left.
    now left.
Qed.

Lemma unmounted_without_Counter c : ~ Counter_shown c unmounted.
Proof.
  intros (before & after & Hdoc). rewrite Counter_output_nodes in Hdoc.
  destruct before; discriminate Hdoc.
Qed.

(** ** The claims about the host *)

(** The walk through the page of the README: mount, the fallback, the
    resolved component at 0, two increments, one decrement. *)
Example walk_through :
  map textContent (document mount)
  = ["Hello from React component"; "Loading Counter..."]
  /\ (displayed <$> run [Resolve] mount) = Normal (Some "Count: 0")
  /\ (displayed <$> run [Resolve; Click "Increment"; Click "Increment"] mount)
     = Normal (Some "Count: 2")
  /\ (displayed <$> run [Resolve; Click "Increment"; Click "Increment"; Click "Decrement"] mount)
     = Normal (Some "Count: 1").
Proof. repeat split. Qed.

(** C1, as amended.  Mount the host, let the remote component resolve, then
    activate the two controls in any order, [N] times "Increment" and [M]
    times "Decrement".  As long as the difference between the increments
    and the decrements made so far stays within 2^53 in magnitude all along
    the sequence (as it does in any sequence of at most 2^53 activations,
    see [short_sequences_stay_safe]), no activation throws, the count is
    [N - M] and the page displays it. *)
Theorem count_after_activations (acts : list activation) :
  let N := Z.of_nat (count_occ activation_eq_dec acts Increment) in
  let M := Z.of_nat (count_occ activation_eq_dec acts Decrement) in
  stays_safe acts ->
  exists p,
    run (Resolve :: clicks acts) mount = Normal p
    /\ count p = Some (N - M)
    /\ displayed p = Some ("Count: " +:+ pretty (N - M)).
Proof.
  intros N M Hsafe. change (N - M) with (difference acts).
  exists (resolved_page (difference acts)).
  split; [|split; [apply count_resolved_page|]].
  - rewrite run_cons, step_mount, run_clicks.
    + now rewrite Z.add_0_l.
    + intros k. rewrite Z.add_0_l. apply Hsafe.
  - apply displayed_safe_page.
    specialize (Hsafe (length acts)). now rewrite firstn_all in Hsafe.
Qed.

(** C1 as it was stated fails past 2^53: after 2^53 + 1 increments the
    count and the page are at 2^53, one short of [N - M]. *)
Lemma count_after_activations_counterexample :
  let acts := repeat Increment (Z.to_nat (2 ^ 53 + 1)) in
  exists p,
    run (Resolve :: clicks acts) mount = Normal p
    /\ count p = Some (2 ^ 53)
    /\ displayed p = Some "Count: 9007199254740992"
    /\ Z.of_nat (count_occ activation_eq_dec acts Increment)
       - Z.of_nat (count_occ activation_eq_dec acts Decrement) = 2 ^ 53 + 1.
Proof.
  intros acts. subst acts. exists (resolved_page (2 ^ 53)).
  assert (safe 0) as H0 by (unfold safe; lia).
  split; [|split; [reflexivity|split; [reflexivity|]]].
  - rewrite run_cons, step_mount, run_increments by exact H0.
    rewrite Z2Nat.id by lia. reflexivity.
  - rewrite count_occ_repeat_eq, count_occ_repeat_neq by congruence.
    rewrite Z2Nat.id by lia. reflexivity.
Qed.


(** C4.  The first render of [App] reads the count 0 and leaves a hook
    holding 0, so the mounted page has count 0; and the first render after
    the remote component resolves displays "Count: 0" (any click before
    that found no control). *)
Theorem initial_count_is_zero (ls : list string) :
  fst (useState 0 None) = 0
  /\ hooks mount = Some {| memoizedState := 0; queue := [] |}
  /\ count mount = Some 0
  /\ exists p,
       run (map Click ls ++ [Resolve]) mount = Normal p
       /\ remote p = Resolved
       /\ count p = Some 0
       /\ displayed p = Some "Count: 0".
Proof.
  repeat apply conj; try reflexivity.
  exists (resolved_page 0).
  rewrite run_app, run_clicks_mount. cbn [run]. rewrite step_mount.
  repeat apply conj; reflexivity.
Qed.

(** C5, as amended.  On every page the host can reach, either the root is
    unmounted after a failed import and there is no count any more, or the
    count is an integer [c] within 2^53 in magnitude.  Then every event
    either is the failure of the pending import, which discards the count,
    or leaves a count [c'] that is [c + 1], [c - 1] or [c]: it is [c + 1]
    exactly when the event activates "Increment" on a page showing the
    controls and [c] is below 2^53, and [c - 1] exactly when it activates
    "Decrement" there and [c] is above -2^53.  The code sets no bound of
    its own: every integer within 2^53 in magnitude, negative or not, is
    the count of a reachable page. *)
Theorem count_changes_by_one_only (es : list event) :
  (exists p,
     run es mount = Normal p
     /\ match count p with
        | None => remote p = Rejected
        | Some c =>
            safe c
            /\ forall e, exists p',
                 step e p = Normal p'
                 /\ match count p' with
                    | None => e = Reject /\ remote p = Pending
                    | Some c' =>
                        (c' = c + 1 \/ c' = c - 1 \/ c' = c)
                        /\ (c' = c + 1 <->
                            e = Click "Increment" /\ remote p = Resolved /\ c < 2 ^ 53)
                        /\ (c' = c - 1 <->
                            e = Click "Decrement" /\ remote p = Resolved /\ - (2 ^ 53) < c)
                    end
        end)
  /\ (forall z : Z, safe z ->
        exists es' p, run es' mount = Normal p /\ count p = Some z).
Proof.
  assert (safe 0) as H0 by (unfold safe; lia).
  split.
  - destruct (run_mount es) as (p & Hp & Hshape). exists p. split; [exact Hp|].
    destruct (import_state es).
    + subst p. change (count mount) with (Some 0). split; [exact H0|].
      intros e. rewrite step_mount. eexists. split; [reflexivity|].
      destruct e as [| |l].
      * change (count (resolved_page 0)) with (Some 0).
        repeat apply conj; try tauto; try lia; intros [E _]; discriminate E.
      * change (count unmounted) with (@None Z). now split.
      * change (count mount) with (Some 0).
        repeat apply conj; try tauto; try lia; intros (_ & E & _); discriminate E.
    + destruct Hshape as (c & -> & Hc & _).
      rewrite count_resolved_page. split; [exact Hc|].
      intros e. rewrite step_resolved_page. eexists. split; [reflexivity|].
      rewrite count_resolved_page, remote_resolved_page.
      destruct e as [| |l].
      * repeat apply conj; try tauto; try lia; intros [E _]; discriminate E.
      * repeat apply conj; try tauto; try lia; intros [E _]; discriminate E.
      * unfold after_click.
        pose proof (number_add_one c Hc) as Hadd.
        pose proof (number_sub_one c Hc) as Hsub.
        unfold safe in Hc.
        destruct (String.eqb_spec l "Increment") as [->|Hi];
          [rewrite Hadd|destruct (String.eqb_spec l "Decrement") as [->|Hd];
                        [rewrite Hsub|]];
          repeat apply conj; try lia;
          try (intros Hlt; repeat apply conj; [reflexivity | reflexivity | lia]);
          intros (E & _ & Hb); inversion E; subst; try congruence; lia.
    + subst p. reflexivity.
  - intros z Hz. unfold safe in Hz.
    destruct (Z_lt_le_dec z 0) as [Hneg|Hpos].
    + exists (Resolve :: clicks (repeat Decrement (Z.to_nat (- z)))), (resolved_page z).
      split; [|reflexivity].
      rewrite run_cons, step_mount, run_decrements by exact H0.
      do 2 f_equal. lia.
    + exists (Resolve :: clicks (repeat Increment (Z.to_nat z))), (resolved_page z).
      split; [|reflexivity].
      rewrite run_cons, step_mount, run_increments by exact H0.
      do 2 f_equal. lia.
Qed.

(** C5 as it was stated fails at 2^53: after 2^53 increments the page shows
    the controls with count 2^53, and activating "Increment" there leaves
    the very same page, count included; and no run reaches 2^53 + 1. *)
Lemma count_changes_by_one_only_counterexample :
  let es := Resolve :: clicks (repeat Increment (Z.to_nat (2 ^ 53))) in
  exists p,
    run es mount = Normal p
    /\ remote p = Resolved
    /\ count p = Some (2 ^ 53)
    /\ step (Click "Increment") p = Normal p
    /\ (forall es' p', run es' mount = Normal p' -> count p' <> Some (2 ^ 53 + 1)).
Proof.
  intros es. subst es. exists (resolved_page (2 ^ 53)).
  assert (safe 0) as H0 by (unfold safe; lia).
  split; [|split; [reflexivity|split; [reflexivity|split]]].
  - rewrite run_cons, step_mount, run_increments by exact H0.
    rewrite Z2Nat.id by lia. reflexivity.
  - rewrite step_resolved_page. reflexivity.
  - intros es' p' Hrun.
    destruct (run_mount es') as (q & Hq & Hshape).
    rewrite Hq in Hrun. apply Normal_inj in Hrun. subst q.
    destruct (import_state es').
    + subst p'. discriminate.
    + destruct Hshape as (c & -> & Hc & _). rewrite count_resolved_page.
      unfold safe in Hc. intros E. injection E as E. lia.
    + subst p'. discriminate.
Qed.

(** C6, as amended.  After any events the page is in one of three states,
    by how the import stands.  While it is pending the page shows the
    fallback text "Loading Counter..." and no node of the Counter's output;
    once it is resolved the fallback is gone and the Counter's output for
    the current count is on the page; the page never shows both.  Once the
    import has failed the root is unmounted and the page shows neither. *)
Theorem fallback_until_resolved (es : list event) :
  exists p,
    run es mount = Normal p
    /\ remote p = import_state es
    /\ match remote p with
       | Pending => fallback_shown p /\ Counter_absent p
       | Resolved =>
           ~ fallback_shown p
           /\ exists c, count p = Some c
                /\ Counter_shown c p
                /\ displayed p = Some ("Count: " +:+ pretty c)
       | Rejected =>
           document p = []
           /\ ~ fallback_shown p
           /\ forall c, ~ Counter_shown c p
       end
    /\ ~ (fallback_shown p /\ exists c, Counter_shown c p).
Proof.
  destruct (run_mount es) as (p & Hp & Hshape). exists p. split; [exact Hp|].
  destruct (import_state es).
  - subst p. split; [reflexivity|]. rewrite remote_mount. split.
    + split; [apply mount_shows_fallback | apply mount_without_Counter].
    + intros [_ [c Hc]].
      exact (Counter_shown_not_absent c mount Hc mount_without_Counter).
  - destruct Hshape as (c & -> & Hc & _). split; [reflexivity|].
    rewrite remote_resolved_page. split.
    + split; [apply resolved_page_without_fallback|].
      exists c. split; [apply count_resolved_page|].
      split; [apply resolved_page_shows_Counter | now apply displayed_safe_page].
    + intros [Hf _]. exact (resolved_page_without_fallback c Hf).
  - subst p. split; [reflexivity|].
    change (remote unmounted) with Rejected. split.
    + split; [reflexivity|].
      split; [apply unmounted_without_fallback | apply unmounted_without_Counter].
    + intros [Hf _]. exact (unmounted_without_fallback Hf).
Qed.

(** C6 as it was stated fails when the import fails: the component is then
    unresolved for good, yet the page does not show the fallback, nor
    anything else. *)
Lemma fallback_until_resolved_counterexample :
  exists p,
    run [Reject] mount = Normal p
    /\ remote p <> Resolved
    /\ ~ fallback_shown p
    /\ document p = [].
Proof.
  exists unmounted.
  split; [reflexivity|]. split; [discriminate|].
  split; [apply unmounted_without_fallback | reflexivity].
Qed.

(** C7, as amended.  When [onIncrement] and [onDecrement] are functions,
    activating a control of the rendered component is the call of the
    function supplied for it and nothing else: it returns what that call
    returns and throws what that call throws.  The callbacks of the host
    only queue an update, so on every page the host can reach activating
    either control completes without throwing. *)
Theorem activation_completes_as_the_callback :
  (forall (number fn W world : Type) (HN : Number number) (HC : Callable fn world)
          (props : gmap string (value number fn)) (f g : fn) (w0 : W)
          (lazy : gmap string (value number fn) -> attempt (list (node number fn))),
     get props "onIncrement" = VFun f ->
     get props "onDecrement" = VFun g ->
     exists doc,
       render lazy (fst (Remote.Counter props w0)) = Ready doc
       /\ forall w : world,
            activate (label Increment) doc w = call f w
            /\ activate (label Decrement) doc w = call g w)
  /\ (forall (es : list event) (a : activation), exists p p',
        run es mount = Normal p /\ click (label a) p = Normal p').
Proof.
  split.
  - intros number fn W world HN HC props f g w0 lazy Hf Hg.
    exact (activation_is_the_call props f g w0 lazy Hf Hg).
  - intros es a.
    destruct (run_mount es) as (p & Hp & Hshape). exists p.
    destruct (import_state es).
    + subst p. exists mount. split; [exact Hp|].
      exact (step_mount (Click (label a))).
    + destruct Hshape as (c & -> & _).
      eexists. split; [exact Hp|]. apply click_resolved_page.
    + subst p. exists unmounted. split; [exact Hp|].
      exact (step_unmounted (Click (label a))).
Qed.

(** C7 as it was stated fails for a function that throws: both props are
    functions, and activating "Increment" throws what the function throws. *)
Lemma activation_never_throws_counterexample :
  let props : gmap string (value Z thrower) :=
    {[ "onIncrement" := VFun boom; "onDecrement" := VFun boom ]} in
  get props "onIncrement" = VFun boom
  /\ get props "onDecrement" = VFun boom
  /\ exists doc,
       render (fun _ => Suspended) (fst (Remote.Counter props tt)) = Ready doc
       /\ activate "Increment" doc tt = Throw "boom".
Proof.
  intros props. subst props.
  split; [reflexivity|]. split; [reflexivity|].
  eexists. split; reflexivity.
Qed.

(** C8.  Rendering [Counter] leaves the state it runs in as it was and
    gives the same element in every state; the only calls its output leads
    to are those of [onIncrement], when the control "Increment" is
    activated, and of [onDecrement], when "Decrement" is; and the hook of
    the host after a render that includes the component is the hook [App]
    itself left, the same as after a render without it. *)
Theorem Counter_is_pure
    {number fn W world : Type} `{Number number} `{Callable fn world}
    (props : gmap string (value number fn)) (w w' : W)
    (lazy : gmap string (value number fn) -> attempt (list (node number fn))) :
  snd (Remote.Counter props w) = w
  /\ fst (Remote.Counter props w) = fst (Remote.Counter props w')
  /\ (exists doc,
        render lazy (fst (Remote.Counter props w)) = Ready doc
        /\ forall (l : string) (x : world),
             activate l doc x =
             if String.eqb l "Increment" then invoke_listener (get props "onIncrement") x
             else if String.eqb l "Decrement" then invoke_listener (get props "onDecrement") x
             else Normal x)
  /\ (forall h : option hook,
        hooks (commit Resolved h) = snd (App h)
        /\ hooks (commit Resolved h) = hooks (commit Pending h)).
Proof.
  split; [reflexivity|]. split; [reflexivity|]. split.
  - eexists. split; [apply render_Counter|].
    intros l x. unfold activate.
    destruct (String.eqb_spec l "Increment") as [->|Hi].
    { rewrite control_Increment. cbn [node_props]. now rewrite onClick_singleton. }
    destruct (String.eqb_spec l "Decrement") as [->|Hd].
    { rewrite control_Decrement. cbn [node_props]. now rewrite onClick_singleton. }
    now rewrite control_other.
  - intros [[m q]|]; split; reflexivity.
Qed.

(** ** Instances of the conditional statements *)

Lemma count_after_activations_witness :
  stays_safe [Increment; Increment; Decrement]
  /\ exists p,
       run (Resolve :: clicks [Increment; Increment; Decrement]) mount = Normal p
       /\ count p = Some 1
       /\ displayed p = Some "Count: 1".
Proof.
  assert (stays_safe [Increment; Increment; Decrement]) as Hsafe
    by (apply short_sequences_stay_safe; cbn; lia).
  split; [exact Hsafe|].
  exact (count_after_activations [Increment; Increment; Decrement] Hsafe).
Defined.

Lemma Counter_renders_count_and_controls_witness :
  get (props_at 3) "count" = VNum 3
  /\ get (props_at 3) "onIncrement" = VFun (onIncrement 3)
  /\ get (props_at 3) "onDecrement" = VFun (onDecrement 3)
  /\ exists text increment decrement,
       render (fun _ => Suspended) (fst (Remote.Counter (props_at 3) tt))
       = Ready [text; increment; decrement]
       /\ has_tag "p" text = true
       /\ textContent text = "Count: " +:+ NumberToString 3
       /\ control "Increment" [text; increment; decrement] = Some increment
       /\ textContent increment = "Increment"
       /\ (forall w : option hook,
             activate "Increment" [text; increment; decrement] w = call (onIncrement 3) w)
       /\ control "Decrement" [text; increment; decrement] = Some decrement
       /\ textContent decrement = "Decrement"
       /\ (forall w : option hook,
             activate "Decrement" [text; increment; decrement] w = call (onDecrement 3) w).
Proof.
  repeat (split; [reflexivity|]).
  apply (Counter_renders_count_and_controls
           (props_at 3) 3 (onIncrement 3) (onDecrement 3) tt (fun _ => Suspended));
    reflexivity.
Defined.

Lemma activation_completes_as_the_callback_witness :
  get (props_at 3) "onIncrement" = VFun (onIncrement 3)
  /\ get (props_at 3) "onDecrement" = VFun (onDecrement 3)
  /\ exists doc,
       render (fun _ => Suspended) (fst (Remote.Counter (props_at 3) tt)) = Ready doc
       /\ forall w : option hook,
            activate (label Increment) doc w = call (onIncrement 3) w
            /\ activate (label Decrement) doc w = call (onDecrement 3) w.
Proof.
  split; [reflexivity|]. split; [reflexivity|].
  exact (proj1 activation_completes_as_the_callback Z closure unit (option hook) _ _
           (props_at 3) (onIncrement 3) (onDecrement 3) tt (fun _ => Suspended)
           eq_refl eq_refl).
Defined.

Lemma Counter_displays_any_number_witness :
  get (props_at (-7)) "count" = VNum (-7)
  /\ exists text controls,
       render (fun _ => Suspended) (fst (Remote.Counter (props_at (-7)) tt))
       = Ready (text :: controls)
       /\ text = ElementNode "p" ∅ [TextNode "Count: "; TextNode (NumberToString (-7))]
       /\ textContent text = "Count: " +:+ NumberToString (-7).
Proof.
  split; [reflexivity|].
  apply (Counter_displays_any_number (props_at (-7)) (-7) tt (fun _ => Suspended)).
  reflexivity.
Defined.

(** The same for a half and for NaN, which [Counter] shows as they print. *)
Example Counter_displays_half_and_NaN :
  let paragraph (n : sample_number) :=
    textContent <$>
      querySelector "p"
        (match render (fun _ => Suspended)
                 (fst (Remote.Counter ({[ "count" := VNum n ]} : gmap string (value sample_number unit)) tt))
         with Ready ns => ns | Suspended | Failed => [] end) in
  paragraph (Half 2) = Some "Count: 2.5"
  /\ paragraph (Half (-1)) = Some "Count: -0.5"
  /\ paragraph NaN = Some "Count: NaN"
  /\ paragraph (Whole (-3)) = Some "Count: -3".
Proof. repeat split. Qed.

Lemma Counter_depends_on_three_props_witness :
  get (<["title" := VStr "remote"]> (props_at 3)) "count" = get (props_at 3) "count"
  /\ get (<["title" := VStr "remote"]> (props_at 3)) "onIncrement" = get (props_at 3) "onIncrement"
  /\ get (<["title" := VStr "remote"]> (props_at 3)) "onDecrement" = get (props_at 3) "onDecrement"
  /\ <["title" := VStr "remote"]> (props_at 3) <> props_at 3
  /\ Remote.Counter (<["title" := VStr "remote"]> (props_at 3)) tt = Remote.Counter (props_at 3) tt
  /\ render (fun _ => Suspended) (fst (Remote.Counter (<["title" := VStr "remote"]> (props_at 3)) tt))
     = render (fun _ => Suspended) (fst (Remote.Counter (props_at 3) tt)).
Proof.
  repeat (split; [reflexivity|]).
  split.
  - intros E. apply (f_equal (fun m => m !! "title")) in E. discriminate E.
  - apply (Counter_depends_on_three_props
             (<["title" := VStr "remote"]> (props_at 3)) (props_at 3) tt (fun _ => Suspended));
      reflexivity.
Defined.

(** * Further properties of the two components *)

(** ** [Counter] on props of other kinds *)

(** X1.  For props holding values of any of the six kinds of [value]
    (primitive values and functions; the empty props object included),
    [Counter] renders without suspending to one paragraph followed by
    exactly two buttons, labelled "Increment" and "Decrement" in this
    order.  The paragraph reads "Count: " followed by the count as React
    prints such a child: a number in its string form, a string as it is,
    and nothing at all for a missing count, [null], a boolean or a
    function. *)
Theorem Counter_on_primitive_props
    {number fn W : Type} `{Number number}
    (props : gmap string (value number fn)) (w : W)
    (lazy : gmap string (value number fn) -> attempt (list (node number fn))) :
  exists text increment decrement,
    render lazy (fst (Remote.Counter props w)) = Ready [text; increment; decrement]
    /\ List.filter (has_tag "p") (all_nodes [text; increment; decrement]) = [text]
    /\ List.filter (has_tag "button") (all_nodes [text; increment; decrement])
       = [increment; decrement]
    /\ textContent increment = "Increment"
    /\ textContent decrement = "Decrement"
    /\ textContent text =
       "Count: " +:+ match get props "count" with
                     | VNum n => NumberToString n
                     | VStr s => s
                     | VUndefined | VNull | VBool _ | VFun _ => ""
                     end.
Proof.
  eexists _, _, _. split; [apply render_Counter|].
  destruct (get props "count"); repeat apply conj; reflexivity.
Qed.

(** X2.  A control whose callback prop is missing, or holds another falsy
    value ([undefined], [null], [false], a falsy number, the empty string),
    is inert: activating it returns and leaves every state as it was. *)
Theorem missing_callback_is_inert
    {number fn W world : Type} `{Number number} `{Callable fn world}
    (props : gmap string (value number fn)) (a : activation) (w0 : W)
    (lazy : gmap string (value number fn) -> attempt (list (node number fn))) :
  ToBoolean (get props (handler_prop a)) = false ->
  exists doc,
    render lazy (fst (Remote.Counter props w0)) = Ready doc
    /\ forall w : world, activate (label a) doc w = Normal w.
Proof.
  intros Hfalsy. eexists. split; [apply render_Counter|].
  intros w. unfold activate.
  destruct a; cbn [label handler_prop] in *;
    rewrite ?control_Increment, ?control_Decrement;
    cbn [node_props]; rewrite onClick_singleton; unfold invoke_listener.
  - destruct (get props "onIncrement"); cbn [ToBoolean] in *;
      try rewrite Hfalsy; try reflexivity; discriminate Hfalsy.
  - destruct (get props "onDecrement"); cbn [ToBoolean] in *;
      try rewrite Hfalsy; try reflexivity; discriminate Hfalsy.
Qed.

(** X3.  A control whose callback prop holds a truthy value that is no
    function makes the activation throw, with the message that names the
    type of the value; no state is reached. *)
Theorem non_function_callback_throws
    {number fn W world : Type} `{Number number} `{Callable fn world}
    (props : gmap string (value number fn)) (a : activation) (w0 : W)
    (lazy : gmap string (value number fn) -> attempt (list (node number fn))) :
  ToBoolean (get props (handler_prop a)) = true ->
  typeof (get props (handler_prop a)) <> "function" ->
  exists doc,
    render lazy (fst (Remote.Counter props w0)) = Ready doc
    /\ forall w : world,
         activate (label a) doc w =
         Throw ("Expected `onClick` listener to be a function, instead got a value of `"
                +:+ typeof (get props (handler_prop a)) +:+ "` type.").
Proof.
  intros Htruthy Hnotfun. eexists. split; [apply render_Counter|].
  intros w. unfold activate.
  destruct a; cbn [label handler_prop] in *;
    rewrite ?control_Increment, ?control_Decrement;
    cbn [node_props]; rewrite onClick_singleton; unfold invoke_listener.
  - destruct (get props "onIncrement"); cbn [ToBoolean typeof] in *;
      try rewrite Htruthy; try reflexivity; try discriminate Htruthy.
    now contradiction Hnotfun.
  - destruct (get props "onDecrement"); cbn [ToBoolean typeof] in *;
      try rewrite Htruthy; try reflexivity; try discriminate Htruthy.
    now contradiction Hnotfun.
Qed.

(** ** The host page *)

(** X4.  The heading of [App] stands outside the suspense boundary: on every
    page the host can reach while the import has not failed, loading or
    resolved, the document starts with the one [h1] "Hello from React
    component", and what follows it is the fallback text alone or the
    output of [Counter] for the current count.  A failed import takes the
    heading away with everything else: the document is empty. *)
Theorem heading_shown_unless_import_failed (es : list event) :
  exists p,
    run es mount = Normal p
    /\ remote p = import_state es
    /\ match remote p with
       | Pending =>
           document p = [ ElementNode "h1" ∅ [TextNode "Hello from React component"];
                          TextNode "Loading Counter..." ]
       | Resolved =>
           exists c, count p = Some c
             /\ document p = ElementNode "h1" ∅ [TextNode "Hello from React component"]
                             :: Counter_output c
       | Rejected => document p = []
       end
    /\ (remote p <> Rejected ->
        List.filter (has_tag "h1") (all_nodes (document p))
        = [ElementNode "h1" ∅ [TextNode "Hello from React component"]]).
Proof.
  destruct (run_mount es) as (p & Hp & Hshape). exists p. split; [exact Hp|].
  destruct (import_state es).
  - subst p. repeat apply conj; reflexivity.
  - destruct Hshape as (c & -> & _). split; [reflexivity|].
    rewrite remote_resolved_page. split; [|reflexivity].
    exists c. split; reflexivity.
  - subst p. split; [reflexivity|]. split; [reflexivity|].
    intros Hne. now contradiction Hne.
Qed.

(** X5.  Short of the two ends of the safe integers the controls undo each
    other: on a reachable page whose count is below 2^53, "Increment" then
    "Decrement" gives back the very same page, hook and document, and so
    does "Decrement" then "Increment" when the count is above -2^53.  At
    2^53 itself the increment is lost, and "Increment" then "Decrement"
    ends one below. *)
Theorem increment_decrement_cancel (es : list event) :
  exists p,
    run es mount = Normal p
    /\ ((forall c, count p = Some c -> c < 2 ^ 53) ->
        run [Click "Increment"; Click "Decrement"] p = Normal p)
    /\ ((forall c, count p = Some c -> - (2 ^ 53) < c) ->
        run [Click "Decrement"; Click "Increment"] p = Normal p)
    /\ (count p = Some (2 ^ 53) -> remote p = Resolved ->
        run [Click "Increment"; Click "Decrement"] p
        = Normal (resolved_page (2 ^ 53 - 1))).
Proof.
  destruct (run_mount es) as (p & Hp & Hshape). exists p. split; [exact Hp|].
  destruct (import_state es).
  - subst p. repeat apply conj; try reflexivity.
    intros E. discriminate E.
  - destruct Hshape as (c & -> & Hc & _).
    rewrite count_resolved_page.
    pose proof (number_add_one c Hc) as Hadd.
    pose proof (number_sub_one c Hc) as Hsub.
    unfold safe in Hc.
    repeat apply conj.
    + intros Hlt. specialize (Hlt c eq_refl).
      rewrite run_cons, step_resolved_page. cbv beta iota.
      rewrite run_cons, step_resolved_page. cbn [run].
      change (after_click "Increment" c) with (number_add c 1).
      rewrite Hadd.
      change (after_click "Decrement" (Z.min (c + 1) (2 ^ 53)))
        with (number_sub (Z.min (c + 1) (2 ^ 53)) 1).
      rewrite number_sub_one by (unfold safe; lia).
      do 2 f_equal. lia.
    + intros Hgt. specialize (Hgt c eq_refl).
      rewrite run_cons, step_resolved_page. cbv beta iota.
      rewrite run_cons, step_resolved_page. cbn [run].
      change (after_click "Decrement" c) with (number_sub c 1).
      rewrite Hsub.
      change (after_click "Increment" (Z.max (c - 1) (- (2 ^ 53))))
        with (number_add (Z.max (c - 1) (- (2 ^ 53))) 1).
      rewrite number_add_one by (unfold safe; lia).
      do 2 f_equal. lia.
    + intros E _. injection E as ->. reflexivity.
  - subst p. repeat apply conj; try reflexivity.
    intros E. discriminate E.
Qed.

(** X6.  After the component has resolved, and as long as the two sequences
    of activations stay among the safe integers, the page reached depends
    on the difference between the number of increments and of decrements
    and on nothing else: two such sequences reach the same page exactly
    when they agree on it. *)
Theorem page_depends_on_difference (acts acts' : list activation) :
  stays_safe acts ->
  stays_safe acts' ->
  run (Resolve :: clicks acts) mount = run (Resolve :: clicks acts') mount
  <-> Z.of_nat (count_occ activation_eq_dec acts Increment)
        - Z.of_nat (count_occ activation_eq_dec acts Decrement)
      = Z.of_nat (count_occ activation_eq_dec acts' Increment)
        - Z.of_nat (count_occ activation_eq_dec acts' Decrement).
Proof.
  intros Hs Hs'.
  change (run (Resolve :: clicks acts) mount = run (Resolve :: clicks acts') mount
          <-> difference acts = difference acts').
  rewrite !run_cons, step_mount.
  rewrite !run_clicks by (intros k; rewrite Z.add_0_l; auto).
  rewrite !Z.add_0_l. split.
  - intros E. now apply Normal_inj, resolved_page_inj in E.
  - now intros ->.
Qed.

(** X7.  Rendering again with no update queued changes nothing: on every
    reachable page, a further render and commit gives the same page, and so
    does a repeated resolution once the component is there. *)
Theorem render_without_update_is_stable (es : list event) :
  exists p,
    run es mount = Normal p
    /\ commit (remote p) (hooks p) = p
    /\ (In Resolve es -> resolve p = p).
Proof.
  destruct (run_mount es) as (p & Hp & Hshape). exists p. split; [exact Hp|].
  destruct (import_state es) eqn:Hstate.
  - subst p. split; [reflexivity|]. intros Hin. exfalso.
    clear Hp. induction es as [|e es IH]; [contradiction|].
    destruct e; cbn [import_state] in Hstate; try discriminate Hstate.
    destruct Hin as [E|Hin]; [discriminate E | now apply IH].
  - destruct Hshape as (c & -> & _). split; reflexivity.
  - subst p. split; reflexivity.
Qed.

(** X8.  A displayed count tells the page: two reachable pages that display
    the same paragraph are the same page, so two different counts are never
    displayed alike.  (The loading page and the unmounted page display no
    paragraph at all.) *)
Theorem displayed_count_is_faithful (es es' : list event) :
  exists p p',
    run es mount = Normal p
    /\ run es' mount = Normal p'
    /\ (forall t, displayed p = Some t -> displayed p' = Some t -> p = p')
    /\ (displayed p = None <-> remote p <> Resolved).
Proof.
  destruct (run_mount es) as (p & Hp & Hshape).
  destruct (run_mount es') as (p' & Hp' & Hshape').
  exists p, p'. split; [exact Hp|]. split; [exact Hp'|].
  assert (mount_none : displayed mount = None) by reflexivity.
  assert (unmounted_none : displayed unmounted = None) by reflexivity.
  destruct (import_state es).
  - subst p. split; [intros t E; rewrite mount_none in E; discriminate E|].
    split; [discriminate | reflexivity].
  - destruct Hshape as (c & -> & Hc & _). split.
    + intros t E E'. destruct (import_state es').
      * subst p'. rewrite mount_none in E'. discriminate E'.
      * destruct Hshape' as (c' & -> & Hc' & _).
        rewrite displayed_safe_page in E, E' by assumption.
        rewrite <- E' in E. injection E as E.
        apply pretty_Z_inj in E. now subst.
      * subst p'. rewrite unmounted_none in E'. discriminate E'.
    + rewrite displayed_resolved_page, remote_resolved_page.
      split; [discriminate | intros Hne; now contradiction Hne].
  - subst p. split; [intros t E; rewrite unmounted_none in E; discriminate E|].
    split; [discriminate | reflexivity].
Qed.

(** X9.  Within one batch the last update wins: when callbacks made by any
    renders are called one after the other before the next render, none
    throws, and the next render reads the count set by the last of them
    alone, the [c + 1] or [c - 1] it computes from the count [c] it
    captured; the calls before it and the state they found have no effect.
    (A render that runs into the failed import leaves no count.) *)
Theorem last_update_wins (fs : list closure) (f : closure) (h : hook) (st : status) :
  exists h',
    call_all (fs ++ [f]) (Some h) = Normal h'
    /\ count (commit st h') =
       match st with
       | Pending | Resolved =>
           Some match f with
                | onIncrement c => number_add c 1
                | onDecrement c => number_sub c 1
                end
       | Rejected => None
       end.
Proof.
  assert (forall gs (m : Z) (q : list Z), exists q',
            call_all gs (Some {| memoizedState := m; queue := q |})
            = Normal (Some {| memoizedState := m; queue := q' |})) as Hall.
  { induction gs as [|g gs IH] using rev_ind; intros m q.
    - exists q. reflexivity.
    - destruct (IH m q) as [q' Hq']. unfold call_all in *.
      rewrite fold_left_app, Hq'. destruct g; eexists; reflexivity. }
  destruct h as [m q]. destruct (Hall fs m q) as [q' Hq'].
  unfold call_all in *. rewrite fold_left_app, Hq'.
  destruct f as [c|c]; eexists; (split; [reflexivity|]);
    cbn [setCount fmap option_fmap option_map memoizedState queue];
    rewrite count_commit; destruct st; try reflexivity;
    now rewrite fold_left_app.
Qed.

(** X10.  On every reachable page that still has a count, the count is at
    most the number of events so far, in magnitude; only the page
    unmounted by a failed import has none. *)
Theorem count_within_events (es : list event) :
  exists p,
    run es mount = Normal p
    /\ match count p with
       | Some c => Z.abs c <= Z.of_nat (length es)
       | None => remote p = Rejected
       end.
Proof.
  destruct (run_mount es) as (p & Hp & Hshape). exists p. split; [exact Hp|].
  destruct (import_state es).
  - subst p. change (count mount) with (Some 0). cbv beta iota. lia.
  - destruct Hshape as (c & -> & _ & Hlen). now rewrite count_resolved_page.
  - subst p. reflexivity.
Qed.

(** X11.  Clicks made while the component is loading are lost: the page has
    no control yet, so whatever is clicked before the first resolution, the
    run goes on as if nothing had been clicked. *)
Theorem clicks_while_loading_are_lost (ls : list string) (es : list event) :
  run (map Click ls ++ es) mount = run es mount.
Proof.
  rewrite run_app.
  induction ls as [|l ls IH]; cbn [map run]; [reflexivity|].
  rewrite step_mount. exact IH.
Qed.

(** ** Instances of the conditional statements *)

Lemma missing_callback_is_inert_witness :
  ToBoolean (get (∅ : gmap string (value Z closure)) (handler_prop Increment)) = false
  /\ exists doc,
       render (fun _ => Suspended) (fst (Remote.Counter (∅ : gmap string (value Z closure)) tt))
       = Ready doc
       /\ forall w : option hook, activate (label Increment) doc w = Normal w.
Proof.
  split; [reflexivity|].
  apply (missing_callback_is_inert (world := option hook)
           (∅ : gmap string (value Z closure)) Increment tt (fun _ => Suspended)).
  reflexivity.
Defined.

Lemma non_function_callback_throws_witness :
  ToBoolean (get ({[ "onDecrement" := VStr "oops" ]} : gmap string (value Z closure))
               (handler_prop Decrement)) = true
  /\ typeof (get ({[ "onDecrement" := VStr "oops" ]} : gmap string (value Z closure))
               (handler_prop Decrement)) <> "function"
  /\ exists doc,
       render (fun _ => Suspended)
         (fst (Remote.Counter ({[ "onDecrement" := VStr "oops" ]} : gmap string (value Z closure)) tt))
       = Ready doc
       /\ forall w : option hook,
            activate (label Decrement) doc w =
            Throw ("Expected `onClick` listener to be a function, instead got a value of `"
                   +:+ typeof (get ({[ "onDecrement" := VStr "oops" ]} : gmap string (value Z closure))
                                 (handler_prop Decrement))
                   +:+ "` type.").
Proof.
  split; [reflexivity|]. split; [discriminate|].
  apply (non_function_callback_throws (world := option hook)
           ({[ "onDecrement" := VStr "oops" ]} : gmap string (value Z closure))
           Decrement tt (fun _ => Suspended)).
  - reflexivity.
  - discriminate.
Defined.

Lemma page_depends_on_difference_witness :
  stays_safe [Increment; Decrement; Increment]
  /\ stays_safe [Increment]
  /\ (run (Resolve :: clicks [Increment; Decrement; Increment]) mount
      = run (Resolve :: clicks [Increment]) mount
      <-> Z.of_nat (count_occ activation_eq_dec [Increment; Decrement; Increment] Increment)
            - Z.of_nat (count_occ activation_eq_dec [Increment; Decrement; Increment] Decrement)
          = Z.of_nat (count_occ activation_eq_dec [Increment] Increment)
            - Z.of_nat (count_occ activation_eq_dec [Increment] Decrement)).
Proof.
  assert (stays_safe [Increment; Decrement; Increment]) as H1
    by (apply short_sequences_stay_safe; cbn; lia).
  assert (stays_safe [Increment]) as H2
    by (apply short_sequences_stay_safe; cbn; lia).
  split; [exact H1|]. split; [exact H2|].
  exact (page_depends_on_difference [Increment; Decrement; Increment] [Increment] H1 H2).
Defined.
